(** * newdns: zone and record-set validation, accept filter and query handler

    A shallow embedding of [zone.go], [set.go] and [server.go].

    - [time.Duration] is a signed 64-bit count of nanoseconds: a [Z], with the
      wrap-around of the one addition the code performs written out.
    - Go strings are [string]s compared byte by byte ([String.ltb]).
    - A method with a pointer receiver that mutates it returns the receiver's
      final state together with its error ([None] is Go's [nil]).
    - What a handler invocation does to the outside (messages written, the
      connection closed, errors reported) is the list of its events.
    - Functions of [github.com/miekg/dns] and helpers of the package that the
      three files call and do not define are parameters: Section variables
      for the two validators, the fields of [Env.t] for the server.  They are
      instantiated where a concrete run is evaluated. *)

From Stdlib Require Import ZArith String Ascii List Bool Lia Permutation Sorted.
From Stdlib Require Import DecimalString.
Import ListNotations.
Local Open Scope string_scope.
Local Open Scope list_scope.
Local Open Scope Z_scope.

(** ** Go's [time] constants and signed 64-bit wrap-around *)

Module time.
Definition Nanosecond : Z := 1.
Definition Microsecond : Z := 1000 * Nanosecond.
Definition Millisecond : Z := 1000 * Microsecond.
Definition Second : Z := 1000 * Millisecond.
Definition Minute : Z := 60 * Second.
Definition Hour : Z := 60 * Minute.
End time.

Definition wrap64 (x : Z) : Z := (x + 2 ^ 63) mod 2 ^ 64 - 2 ^ 63.

Definition error := string.

(** [dns.IsFqdn] on a name without escaped dots: the name ends in the dot of
    the root label.  Used only to run the code on concrete zones; the
    theorems below hold for any predicate. *)
Fixpoint endsWithDot (s : string) : bool :=
  match s with
  | EmptyString => false
  | String c EmptyString => Ascii.eqb c "."
  | String _ rest => endsWithDot rest
  end.

(** ** Records (as the three files use them) *)

(** The record type tag is a 16-bit DNS type code. *)
Definition RRType := Z.

Module Types.
Definition A : RRType := 1.
Definition NS : RRType := 2.
Definition CNAME : RRType := 5.
Definition SOA : RRType := 6.
Definition MX : RRType := 15.
Definition TXT : RRType := 16.
Definition AAAA : RRType := 28.
Definition OPT : RRType := 41.
Definition ANY : RRType := 255.
End Types.

Record Record_ := mkRecord {
  Address : string;
  Priority : Z;
  Data : list string
}.

(** ** zone.go *)

Module Zone.

Record t := mk {
  Name : string;
  MasterNameServer : string;
  AllNameServers : list string;
  AdminEmail : string;
  Refresh : Z;
  Retry : Z;
  Expire : Z;
  SOATTL : Z;
  NSTTL : Z;
  MinTTL : Z;
  Handler : RRType -> string -> list Record_ * option error
}.

Section Validate.
Variable IsFqdn : string -> bool.

(** The [for _, ns := range z.AllNameServers] loop: the first name that
    is not fully qualified ends it with an error. *)
Fixpoint checkNameServers (l : list string) : option error :=
  match l with
  | [] => None
  | ns :: rest =>
      if negb (IsFqdn ns)
      then Some "additional name server not fully qualified"
      else checkNameServers rest
  end.

(** [Zone.Validate]: the zone as the call leaves it, and the error. *)
Definition Validate (z : t) : t * option error :=
  if negb (IsFqdn (Name z)) then (z, Some "name not fully qualified")
  else if negb (IsFqdn (MasterNameServer z))
  then (z, Some "master server not full qualified")
  else match checkNameServers (AllNameServers z) with
  | Some e => (z, Some e)
  | None =>
    let adminEmail :=
      if String.eqb (AdminEmail z) "" then ("hostmaster@" ++ Name z)%string
      else AdminEmail z in
    let refresh := if Refresh z =? 0 then 6 * time.Hour else Refresh z in
    (* the guard of the retry default reads z.Refresh, after the
       refresh default has been applied *)
    let retry := if refresh =? 0 then time.Hour else Retry z in
    let expire := if Expire z =? 0 then 72 * time.Hour else Expire z in
    let soattl := if SOATTL z =? 0 then 15 * time.Minute else SOATTL z in
    let nsttl := if NSTTL z =? 0 then 48 * time.Hour else NSTTL z in
    let minttl := if MinTTL z =? 0 then 5 * time.Minute else MinTTL z in
    let z' := mk (Name z) (MasterNameServer z) (AllNameServers z)
                 adminEmail refresh retry expire soattl nsttl minttl
                 (Handler z) in
    if retry >=? refresh
    then (z', Some "retry must be less than refresh")
    else if expire <? wrap64 (refresh + retry)
    then (z', Some "expire must be bigger than the sum of refresh and retry")
    else (z', None)
  end.
End Validate.

(** A zone that sets only the required names. *)
Definition exampleZone (nameServers : list string) : t :=
  mk "example.com." "ns1.example.com." nameServers "" 0 0 0 0 0 0
     (fun _ _ => ([], None)).

End Zone.

(** ** Formatting verbs of [fmt.Sprintf] *)

(** [%d]. *)
Definition fmt_d (z : Z) : string := NilZero.string_of_int (Z.to_int z).

Fixpoint zeros (n : nat) : string :=
  match n with
  | O => EmptyString
  | S n' => String "0" (zeros n')
  end.

(** [%05d]: the sign, then the digits padded with zeros to a width of five
    characters in all. *)
Definition fmt_05d (z : Z) : string :=
  let digits := NilZero.string_of_uint (N.to_uint (Z.abs_N z)) in
  if z <? 0
  then ("-" ++ zeros (4 - String.length digits) ++ digits)%string
  else (zeros (5 - String.length digits) ++ digits)%string.

(** ** [sort.Slice]

    On a short slice the Go runtime sorts by insertion: for each index [i]
    from the second element on, the element is swapped towards the front
    while [less(j, j-1)] holds.  [sink] is that inner loop on the prefix
    already sorted, held in reverse (nearest neighbour first).  The sort is
    not stable in general; on a slice whose keys are pairwise distinct every
    sort gives the result of this one ([sorted_perm_unique] below). *)

Section InsertionSort.
Context {A : Type}.
Variable less : A -> A -> bool.

Fixpoint sink (x : A) (revPrefix : list A) : list A :=
  match revPrefix with
  | [] => [x]
  | p :: rest => if less x p then p :: sink x rest else x :: p :: rest
  end.

Definition insertionSort (l : list A) : list A :=
  rev (fold_left (fun revPrefix x => sink x revPrefix) l []).
End InsertionSort.

(** ** set.go *)

Module Set_.

Record t := mk {
  Name : string;
  Type_ : RRType;
  Records : list Record_;
  TTL : Z
}.

(** What a call of [Validate] does: it returns, leaving the set in a state and
    giving an error or [nil], or it panics (an index out of range inside the
    comparison). *)
Inductive outcome :=
| Returned (s : t) (err : option error)
| Panicked.

(** The string a record is compared by. *)
Definition sortKey (typ : RRType) (r : Record_) : string :=
  if typ =? Types.TXT then hd EmptyString (Data r)
  else if typ =? Types.MX
  then (fmt_05d (Priority r) ++ " " ++ Address r)%string
  else Address r.

(** The closure given to [sort.Slice], on the two records at its indices. *)
Definition less (typ : RRType) (ri rj : Record_) : bool :=
  if typ =? Types.TXT
  then String.ltb (hd EmptyString (Data ri)) (hd EmptyString (Data rj))
  else if typ =? Types.MX
  then let a := (fmt_05d (Priority ri) ++ " " ++ Address ri)%string in
       let b := (fmt_05d (Priority rj) ++ " " ++ Address rj)%string in
       String.ltb a b
  else String.ltb (Address ri) (Address rj).

(** [Data[0]] is out of range for a TXT record without data; the closure is
    called on every element as soon as the slice has two. *)
Definition lessPanics (typ : RRType) (records : list Record_) : bool :=
  (typ =? Types.TXT) && (1 <? Z.of_nat (length records))
  && existsb (fun r => match Data r with [] => true | _ => false end) records.

Section Validate.
Variable IsDomain : string -> bool -> bool.
Variable Type_valid : RRType -> bool.
Variable Record_Validate : Record_ -> RRType -> option error.

(** The [for _, record := range s.Records] loop. *)
Fixpoint validateRecords (typ : RRType) (l : list Record_) : option error :=
  match l with
  | [] => None
  | record :: rest =>
      match Record_Validate record typ with
      | Some err => Some ("invalid record: " ++ err)%string
      | None => validateRecords typ rest
      end
  end.

(** [Set.Validate]. *)
Definition Validate (s : t) : outcome :=
  if negb (IsDomain (Name s) true)
  then Returned s (Some ("invalid name: " ++ Name s)%string)
  else if negb (Type_valid (Type_ s))
  then Returned s (Some ("invalid type: " ++ fmt_d (Type_ s))%string)
  else if Z.of_nat (length (Records s)) =? 0
  then Returned s (Some "missing records")
  else if (Type_ s =? Types.CNAME) && (Z.of_nat (length (Records s)) >? 1)
  then Returned s (Some "multiple CNAME records")
  else match validateRecords (Type_ s) (Records s) with
  | Some e => Returned s (Some e)
  | None =>
    if lessPanics (Type_ s) (Records s) then Panicked
    else
      let records := insertionSort (less (Type_ s)) (Records s) in
      let ttl := if TTL s =? 0 then 5 * time.Minute else TTL s in
      Returned (mk (Name s) (Type_ s) records ttl) None
  end.
End Validate.

End Set_.

(** ** Validators for concrete runs *)

Fixpoint splitDots (cur : string) (s : string) : list string :=
  match s with
  | EmptyString => [cur]
  | String c rest =>
      if Ascii.eqb c "." then cur :: splitDots EmptyString rest
      else splitDots (cur ++ String c EmptyString)%string rest
  end.

(** Modelled from the spec: [IsDomain] (the name utilities are not among the
    sources), section 4.A: at most 253 octets, every label of 1 to 63 octets,
    and with [fqdn] a final root separator. *)
Definition IsDomain (s : string) (fqdn : bool) : bool :=
  let body :=
    if endsWithDot s then String.substring 0 (String.length s - 1) s else s in
  (negb fqdn || endsWithDot s)
  && (Z.of_nat (String.length body) <=? 253)
  && forallb (fun l => (1 <=? Z.of_nat (String.length l))
                       && (Z.of_nat (String.length l) <=? 63))
             (splitDots EmptyString body).

(** Modelled from the spec: [Type.valid] (not among the sources), section 3:
    the enumerated tags A, AAAA, CNAME, MX, TXT, NS, SOA, PTR. *)
Definition Type_valid (t : RRType) : bool :=
  existsb (Z.eqb t) [Types.A; Types.AAAA; Types.CNAME; Types.MX; Types.TXT;
                     Types.NS; Types.SOA; 12].

(** Modelled from the spec: [Record.Validate] (record.go is not among the
    sources), section 4.B.  The address literals of A and AAAA records are
    parsed by the Go library: the two parsers are arguments. *)
Definition Record_Validate (isIPv4 isIPv6 : string -> bool)
    (r : Record_) (typ : RRType) : option error :=
  if typ =? Types.A
  then if isIPv4 (Address r) then None else Some "invalid IPv4 address"
  else if typ =? Types.AAAA
  then if isIPv6 (Address r) then None else Some "invalid IPv6 address"
  else if (typ =? Types.CNAME) || (typ =? Types.NS) || (typ =? 12)
  then if IsDomain (Address r) true then None else Some "invalid address"
  else if typ =? Types.MX
  then if negb (IsDomain (Address r) true) then Some "invalid address"
       else if (0 <=? Priority r) && (Priority r <=? 65535) then None
       else Some "invalid priority"
  else if typ =? Types.TXT
  then match Data r with
       | [] => Some "missing data"
       | _ => if forallb (fun d => (1 <=? Z.of_nat (String.length d))
                                   && (Z.of_nat (String.length d) <=? 255))
                         (Data r)
              then None else Some "invalid data"
       end
  else Some "invalid type".

Definition noAddress (_ : string) : bool := false.

Definition txt (data : list string) : Record_ := mkRecord "" 0 data.

Definition txtSet (records : list Record_) : Set_.t :=
  Set_.mk "example.com." Types.TXT records 0.

Definition validateSet : Set_.t -> Set_.outcome :=
  Set_.Validate IsDomain Type_valid (Record_Validate noAddress noAddress).

(** ** The part of [github.com/miekg/dns] the server uses *)

Module dns.

Definition OpcodeQuery : Z := 0.
Definition ClassINET : Z := 1.

Definition TypeNS : Z := 2.
Definition TypeSOA : Z := 6.
Definition TypeMX : Z := 15.
Definition TypeOPT : Z := 41.
Definition TypeANY : Z := 255.

Definition RcodeSuccess : Z := 0.
Definition RcodeServerFailure : Z := 2.
Definition RcodeNameError : Z := 3.
Definition RcodeNotImplemented : Z := 4.
Definition RcodeRefused : Z := 5.
Definition RcodeBadVers : Z := 16.

Inductive MsgAcceptAction :=
| MsgAccept
| MsgReject
| MsgIgnore
| MsgRejectNotImplemented.

(** The wire header handed to the accept function: six 16-bit words. *)
Module Header.
Record t := mk {
  Id : Z;
  Bits : Z;
  Qdcount : Z;
  Ancount : Z;
  Nscount : Z;
  Arcount : Z
}.
End Header.

Module Question.
Record t := mk {
  Name : string;
  Qtype : Z;
  Qclass : Z
}.
End Question.

Module RR_Header.
Record t := mk {
  Name : string;
  Rrtype : Z;
  Class : Z;
  Ttl : Z
}.
End RR_Header.

(** Resource records.  The server builds SOA, NS and OPT records itself and
    inspects MX records; every other record comes out of [Set.convert] and is
    passed on as it is. *)
Inductive RR :=
| SOA (Hdr : RR_Header.t) (Ns Mbox : string)
      (Serial Refresh Retry Expire Minttl : Z)
| NS (Hdr : RR_Header.t) (Ns : string)
| MX (Hdr : RR_Header.t) (Preference : Z) (Mx : string)
| OPT (Hdr : RR_Header.t)
| Data (Hdr : RR_Header.t) (rdata : list string).

Definition Header_ (rr : RR) : RR_Header.t :=
  match rr with
  | SOA h _ _ _ _ _ _ _ => h
  | NS h _ => h
  | MX h _ _ => h
  | OPT h => h
  | Data h _ => h
  end.

(** [OPT.UDPSize] is the class field; [OPT.Version] is bits 16 to 23 of the
    TTL field. *)
Definition UDPSize (h : RR_Header.t) : Z := RR_Header.Class h.

Definition Version (h : RR_Header.t) : Z :=
  Z.shiftr (Z.land (RR_Header.Ttl h) 16711680) 16.

Module Msg.
Record t := mk {
  Id : Z;
  Response : bool;
  Opcode : Z;
  Authoritative : bool;
  Truncated : bool;
  RecursionDesired : bool;
  RecursionAvailable : bool;
  Zero : bool;
  AuthenticatedData : bool;
  CheckingDisabled : bool;
  Rcode : Z;
  Compress : bool;
  Question : list Question.t;
  Answer : list RR;
  Ns : list RR;
  Extra : list RR
}.

(** [new(dns.Msg)]. *)
Definition new : t :=
  mk 0 false 0 false false false false false false false 0 false [] [] [] [].

Definition setAuthoritative (v : bool) (m : t) : t :=
  mk (Id m) (Response m) (Opcode m) v (Truncated m)
     (RecursionDesired m) (RecursionAvailable m) (Zero m)
     (AuthenticatedData m) (CheckingDisabled m) (Rcode m) (Compress m)
     (Question m) (Answer m) (Ns m) (Extra m).

Definition setTruncated (v : bool) (m : t) : t :=
  mk (Id m) (Response m) (Opcode m) (Authoritative m) v
     (RecursionDesired m) (RecursionAvailable m) (Zero m)
     (AuthenticatedData m) (CheckingDisabled m) (Rcode m) (Compress m)
     (Question m) (Answer m) (Ns m) (Extra m).

Definition setRcode (v : Z) (m : t) : t :=
  mk (Id m) (Response m) (Opcode m) (Authoritative m) (Truncated m)
     (RecursionDesired m) (RecursionAvailable m) (Zero m)
     (AuthenticatedData m) (CheckingDisabled m) v (Compress m)
     (Question m) (Answer m) (Ns m) (Extra m).

Definition setCompress (v : bool) (m : t) : t :=
  mk (Id m) (Response m) (Opcode m) (Authoritative m) (Truncated m)
     (RecursionDesired m) (RecursionAvailable m) (Zero m)
     (AuthenticatedData m) (CheckingDisabled m) (Rcode m) v
     (Question m) (Answer m) (Ns m) (Extra m).

Definition setAnswer (v : list RR) (m : t) : t :=
  mk (Id m) (Response m) (Opcode m) (Authoritative m) (Truncated m)
     (RecursionDesired m) (RecursionAvailable m) (Zero m)
     (AuthenticatedData m) (CheckingDisabled m) (Rcode m) (Compress m)
     (Question m) v (Ns m) (Extra m).

Definition setNs (v : list RR) (m : t) : t :=
  mk (Id m) (Response m) (Opcode m) (Authoritative m) (Truncated m)
     (RecursionDesired m) (RecursionAvailable m) (Zero m)
     (AuthenticatedData m) (CheckingDisabled m) (Rcode m) (Compress m)
     (Question m) (Answer m) v (Extra m).

Definition setExtra (v : list RR) (m : t) : t :=
  mk (Id m) (Response m) (Opcode m) (Authoritative m) (Truncated m)
     (RecursionDesired m) (RecursionAvailable m) (Zero m)
     (AuthenticatedData m) (CheckingDisabled m) (Rcode m) (Compress m)
     (Question m) (Answer m) (Ns m) v.

(** [Msg.SetReply]: the reply to [request], on a fresh message. *)
Definition SetReply (request : t) (m : t) : t :=
  let query := Opcode request =? OpcodeQuery in
  mk (Id request) true (Opcode request) (Authoritative m) (Truncated m)
     (if query then RecursionDesired request else RecursionDesired m)
     (RecursionAvailable m) (Zero m) (AuthenticatedData m)
     (if query then CheckingDisabled request else CheckingDisabled m)
     RcodeSuccess (Compress m)
     (match Question request with
      | [] => Question m
      | q :: _ => [q]
      end)
     (Answer m) (Ns m) (Extra m).

(** [Msg.IsEdns0]: the OPT record of the additional section, looked for from
    its end (in a decoded message the records of type OPT are the [OPT]
    values). *)
Definition IsEdns0 (m : t) : option RR_Header.t :=
  match find (fun rr => match rr with OPT _ => true | _ => false end)
             (rev (Extra m)) with
  | Some rr => Some (Header_ rr)
  | None => None
  end.

(** [Msg.SetEdns0]: appends an OPT record advertising [udpsize]. *)
Definition SetEdns0 (udpsize : Z) (do : bool) (m : t) : t :=
  let ttl := if do then 32768 else 0 in
  setExtra (Extra m ++ [OPT (RR_Header.mk "." TypeOPT udpsize ttl)]) m.
End Msg.

(** [dns.ResponseWriter], as far as the server uses it: the network of the
    remote address, and whether writing a message fails. *)
Module ResponseWriter.
Record t := mk {
  Network : string;
  WriteMsg : Msg.t -> option error
}.
End ResponseWriter.

End dns.

(** ** server.go *)

(** One result of [Zone.Lookup]. *)
Module LookupResult.
Record t := mk {
  Name : string;
  Set' : Set_.t
}.
End LookupResult.

(** What the three files call and do not define: functions of
    [github.com/miekg/dns] and of Go's library, and the helpers and methods of
    the package that live in its other files. *)
Module Env.
Record t := mk {
  (* dns.IsFqdn *)
  IsFqdn : string -> bool;
  (* Msg.Len: the length of the encoded message *)
  Len : dns.Msg.t -> Z;
  (* strings.ToLower(dns.Name(n).String()) *)
  lowerName : string -> string;
  (* durationToTime: a duration as a number of seconds *)
  durationToTime : Z -> Z;
  emailToDomain : string -> string;
  transferCase : string -> string -> string;
  InZone : string -> string -> bool;
  (* Type.valid *)
  valid : RRType -> bool;
  (* Set.convert: the set's records as resource records named [name] *)
  convert : Set_.t -> Zone.t -> string -> list dns.RR;
  (* Zone.Lookup: results, whether other sets exist at the name, error *)
  Lookup : Zone.t -> string -> list RRType ->
           list LookupResult.t * bool * option error
}.
End Env.

Module Config.
Record t := mk {
  BufferSize : Z;
  Handler : string -> option Zone.t * option error;
  (* whether a Reporter callback is set *)
  Reporter : bool
}.
End Config.

(** [NewServer]: the configuration the server keeps. *)
Definition NewServer (config : Config.t) : Config.t :=
  if Config.BufferSize config <=? 0
  then Config.mk 1220 (Config.Handler config) (Config.Reporter config)
  else config.

(** What a handler invocation does to the outside, in order. *)
Inductive event :=
| WriteMsg (m : dns.Msg.t)
| Close
| Report (msg : string) (request : dns.Msg.t)
| Panic.

(** [Server.accept]. *)
Definition accept (dh : dns.Header.t) : dns.MsgAcceptAction :=
  if negb (Z.land (dns.Header.Bits dh) (Z.shiftl 1 15) =? 0)
  then dns.MsgIgnore
  else if negb (Z.land (Z.shiftr (dns.Header.Bits dh) 11) 15
                =? dns.OpcodeQuery)
  then dns.MsgIgnore
  else if negb (dns.Header.Qdcount dh =? 1)
  then dns.MsgIgnore
  else dns.MsgAccept.

Section Server.
Variable E : Env.t.
Variable config : Config.t.
Variable w : dns.ResponseWriter.t.

Definition reportError (r : dns.Msg.t) (msg : string) : list event :=
  if Config.Reporter config then [Report msg r] else [].

Definition writeError (rs : dns.Msg.t) (code : Z) : list event :=
  [WriteMsg (dns.Msg.setRcode code rs); Close].

(** The buffer size [writeMessage] compares the reply with. *)
Definition bufferOf (rq : dns.Msg.t) : Z :=
  match dns.Msg.IsEdns0 rq with
  | Some opt => dns.UDPSize opt
  | None => 512
  end.

Definition isUDP : bool := String.eqb (dns.ResponseWriter.Network w) "udp".

Definition truncate (rs : dns.Msg.t) : dns.Msg.t :=
  dns.Msg.setExtra [] (dns.Msg.setNs [] (dns.Msg.setAnswer []
    (dns.Msg.setTruncated true rs))).

Definition writeMessage (rq rs : dns.Msg.t) : list event :=
  let buffer := bufferOf rq in
  if isUDP && (Env.Len E rs >? buffer)
  then writeError (truncate rs) dns.RcodeSuccess
  else match dns.ResponseWriter.WriteMsg w rs with
       | Some err => [WriteMsg rs; Close] ++ reportError rq err
       | None => [WriteMsg rs]
       end.

Definition soaRecord (zone : Zone.t) : dns.RR :=
  dns.SOA (dns.RR_Header.mk (Zone.Name zone) dns.TypeSOA dns.ClassINET
             (Env.durationToTime E (Zone.SOATTL zone)))
          (Zone.MasterNameServer zone)
          (Env.emailToDomain E (Zone.AdminEmail zone))
          1
          (Env.durationToTime E (Zone.Refresh zone))
          (Env.durationToTime E (Zone.Retry zone))
          (Env.durationToTime E (Zone.Expire zone))
          (Env.durationToTime E (Zone.MinTTL zone)).

(** The NS records of the zone, one per name server, under [name]. *)
Definition nsRecords (name : string) (zone : Zone.t) : list dns.RR :=
  map (fun ns =>
         dns.NS (dns.RR_Header.mk name dns.TypeNS dns.ClassINET
                   (Env.durationToTime E (Zone.NSTTL zone))) ns)
      (Zone.AllNameServers zone).

Definition writeSOAResponse (rq rs : dns.Msg.t) (zone : Zone.t) : list event :=
  let rs := dns.Msg.setAnswer (dns.Msg.Answer rs ++ [soaRecord zone]) rs in
  let rs := dns.Msg.setNs
              (dns.Msg.Ns rs ++ nsRecords (Zone.Name zone) zone) rs in
  writeMessage rq rs.

Definition writeNSResponse (rq rs : dns.Msg.t) (zone : Zone.t) : list event :=
  let rs := dns.Msg.setAnswer
              (dns.Msg.Answer rs ++ nsRecords (Zone.Name zone) zone) rs in
  writeMessage rq rs.

Definition writeErrorWithSOA (rq rs : dns.Msg.t) (zone : Zone.t) (code : Z)
  : list event :=
  let rs := dns.Msg.setRcode code rs in
  let rs := dns.Msg.setNs (dns.Msg.Ns rs ++ [soaRecord zone]) rs in
  writeMessage rq rs.

(** [res.Set.convert(zone, transferCase(question.Name, res.Name))] for every
    result, in order. *)
Definition convertResults (zone : Zone.t) (qname : string)
    (result : list LookupResult.t) : list dns.RR :=
  flat_map (fun res =>
              Env.convert E (LookupResult.Set' res) zone
                (Env.transferCase E qname (LookupResult.Name res)))
           result.

(** The loop over the answers: the additional records found for the in-zone
    MX targets, appended to [extra]; or, at the first failing lookup, the
    error and the additional section as it stands. *)
Fixpoint checkAnswers (zone : Zone.t) (qname : string)
    (answers : list dns.RR) (extra : list dns.RR)
  : list dns.RR * option error :=
  match answers with
  | [] => (extra, None)
  | dns.MX _ _ mx :: rest =>
      if Env.InZone E (Zone.Name zone) mx
      then match Env.Lookup E zone mx [Types.A; Types.AAAA] with
           | (_, _, Some err) => (extra, Some err)
           | (result, _, None) =>
               checkAnswers zone qname rest
                 (extra ++ convertResults zone qname result)
           end
      else checkAnswers zone qname rest extra
  | _ :: rest => checkAnswers zone qname rest extra
  end.

(** The handler once the zone has been validated. *)
Definition answerFromZone (rq rs : dns.Msg.t) (question : dns.Question.t)
    (name : string) (zone : Zone.t) : list event :=
  if (dns.Question.Qtype question =? dns.TypeSOA)
     && String.eqb name (Zone.Name zone)
  then writeSOAResponse rq rs zone
  else if (dns.Question.Qtype question =? dns.TypeNS)
          && String.eqb name (Zone.Name zone)
  then writeNSResponse rq rs zone
  else
    let typ : RRType := dns.Question.Qtype question in
    if negb (Env.valid E typ)
    then writeErrorWithSOA rq rs zone dns.RcodeNameError
    else match Env.Lookup E zone name [typ] with
    | (_, _, Some err) =>
        writeError rs dns.RcodeServerFailure ++ reportError rq err
    | (result, avl, None) =>
        if Z.of_nat (length result) =? 0
        then if avl
             then writeErrorWithSOA rq rs zone dns.RcodeSuccess
             else writeErrorWithSOA rq rs zone dns.RcodeNameError
        else
          let qname := dns.Question.Name question in
          let rs := dns.Msg.setAnswer
                      (dns.Msg.Answer rs ++ convertResults zone qname result)
                      rs in
          match checkAnswers zone qname (dns.Msg.Answer rs)
                             (dns.Msg.Extra rs) with
          | (extra, Some err) =>
              writeError (dns.Msg.setExtra extra rs) dns.RcodeServerFailure
              ++ reportError rq err
          | (extra, None) =>
              let rs := dns.Msg.setExtra extra rs in
              let rs := dns.Msg.setNs
                          (dns.Msg.Ns rs
                           ++ nsRecords (Env.transferCase E qname
                                           (Zone.Name zone)) zone) rs in
              writeMessage rq rs
          end
    end.

(** The handler from the question on: class and type checks, zone selection
    and validation. *)
Definition answerQuestion (rq rs : dns.Msg.t) : list event :=
  match dns.Msg.Question rq with
  | [] => [Panic]
  | question :: _ =>
      if negb (dns.Question.Qclass question =? dns.ClassINET) then []
      else if dns.Question.Qtype question =? dns.TypeANY
      then writeError rs dns.RcodeNotImplemented
      else
        let name := Env.lowerName E (dns.Question.Name question) in
        match Config.Handler config name with
        | (_, Some err) =>
            writeError rs dns.RcodeServerFailure ++ reportError rq err
        | (None, None) =>
            writeError (dns.Msg.setAuthoritative false rs) dns.RcodeRefused
        | (Some zone, None) =>
            match Zone.Validate (Env.IsFqdn E) zone with
            | (_, Some err) =>
                writeError rs dns.RcodeServerFailure ++ reportError rq err
            | (zone, None) => answerFromZone rq rs question name zone
            end
        end
  end.

(** [Server.handler]. *)
Definition handler (rq : dns.Msg.t) : list event :=
  let rs := dns.Msg.SetReply rq dns.Msg.new in
  let rs := dns.Msg.setCompress true rs in
  let rs := dns.Msg.setAuthoritative true rs in
  match dns.Msg.IsEdns0 rq with
  | Some opt =>
      let rs := dns.Msg.SetEdns0
                  (Config.BufferSize config mod 2 ^ 16) false rs in
      if negb (dns.Version opt =? 0)
      then writeError rs dns.RcodeBadVers
      else answerQuestion rq rs
  | None => answerQuestion rq rs
  end.

End Server.

(** The messages a handler invocation wrote, in order. *)
Fixpoint written (evs : list event) : list dns.Msg.t :=
  match evs with
  | [] => []
  | WriteMsg m :: rest => m :: written rest
  | _ :: rest => written rest
  end.

(** ** An environment for concrete runs

    The runs below use lower-case names without escapes and whole numbers of
    seconds. *)

Definition lowerAscii (c : ascii) : ascii :=
  let n := nat_of_ascii c in
  if (65 <=? n)%nat && (n <=? 90)%nat then ascii_of_nat (n + 32) else c.

Fixpoint toLower (s : string) : string :=
  match s with
  | EmptyString => EmptyString
  | String c rest => String (lowerAscii c) (toLower rest)
  end.

(** A duration as seconds, rounded up, in 32 bits. *)
Definition seconds (d : Z) : Z :=
  ((d + time.Second - 1) / time.Second) mod 2 ^ 32.

Definition ensureDot (s : string) : string :=
  if endsWithDot s then s else (s ++ ".")%string.

(** Modelled from the spec: [emailToDomain] (the name utilities are not among
    the sources), section 4.A: [local@domain] becomes [local.domain.], the
    dots of [local] escaped. *)
Fixpoint emailToDomain (addr : string) : string :=
  match addr with
  | EmptyString => "."
  | String c rest =>
      if Ascii.eqb c "@" then String "." (ensureDot rest)
      else if Ascii.eqb c "." then String "\" (String "." (emailToDomain rest))
      else String c (emailToDomain rest)
  end.

(** Modelled from the spec: [transferCase] (not among the sources), section
    4.A: the last part of [query] that equals [canonical] up to case, in the
    case of the query; [canonical] unchanged when there is none. *)
Fixpoint sharedSuffix (lowCanonical query : string) : option string :=
  let here :=
    if String.prefix lowCanonical (toLower query) then Some query else None in
  match query with
  | EmptyString => here
  | String _ rest =>
      match sharedSuffix lowCanonical rest with
      | Some r => Some r
      | None => here
      end
  end.

Definition transferCase (query canonical : string) : string :=
  match sharedSuffix (toLower canonical) query with
  | Some r => r
  | None => canonical
  end.

Fixpoint hasSuffix (suffix s : string) : bool :=
  String.eqb s suffix
  || match s with
     | EmptyString => false
     | String _ rest => hasSuffix suffix rest
     end.

(** Modelled from the spec: [InZone] (not among the sources), section 4.A:
    [name] is the zone's name or a subdomain of it, case-insensitively. *)
Definition InZone (zone name : string) : bool :=
  String.eqb (toLower name) (toLower zone)
  || hasSuffix (String "." (toLower zone)) (toLower name).

(** Modelled from the spec: [Set.convert] (not among the sources), section
    4.E: one resource record per record of the set, named [name], whose TTL
    is the larger of the set's TTL and the zone's minimum. *)
Definition convert (s : Set_.t) (zone : Zone.t) (name : string) : list dns.RR :=
  let hdr := dns.RR_Header.mk name (Set_.Type_ s) dns.ClassINET
               (seconds (Z.max (Set_.TTL s) (Zone.MinTTL zone))) in
  map (fun r =>
         if Set_.Type_ s =? Types.MX
         then dns.MX hdr (Priority r) (Address r)
         else dns.Data hdr (Address r :: Data r))
      (Set_.Records s).

(** The encoded length without name compression: the header, the questions,
    the records.  The length of the real encoding lies between the 12 octets
    of the header and this number. *)
Definition nameLen (s : string) : Z :=
  if String.eqb s "." then 1 else Z.of_nat (String.length s) + 1.

Definition rrLen (rr : dns.RR) : Z :=
  nameLen (dns.RR_Header.Name (dns.Header_ rr)) + 10 +
  match rr with
  | dns.SOA _ ns mbox _ _ _ _ _ => nameLen ns + nameLen mbox + 20
  | dns.NS _ ns => nameLen ns
  | dns.MX _ _ mx => 2 + nameLen mx
  | dns.OPT _ => 0
  | dns.Data _ rdata =>
      fold_right (fun d n => Z.of_nat (String.length d) + 1 + n) 0 rdata
  end.

Definition uncompressedLen (m : dns.Msg.t) : Z :=
  12
  + fold_right (fun q n => nameLen (dns.Question.Name q) + 4 + n) 0
      (dns.Msg.Question m)
  + fold_right (fun rr n => rrLen rr + n) 0
      (dns.Msg.Answer m ++ dns.Msg.Ns m ++ dns.Msg.Extra m).

(** A zone's data as a table of sets; the lookup returns the sets at the name
    whose type is asked for, and whether the name has any set. *)
Definition tableLookup (table : list LookupResult.t)
    (zone : Zone.t) (name : string) (types : list RRType)
  : list LookupResult.t * bool * option error :=
  let here := filter (fun res => String.eqb (LookupResult.Name res) name)
                     table in
  let result :=
    filter (fun res =>
              existsb (Z.eqb (Set_.Type_ (LookupResult.Set' res))) types)
           here in
  (result, match result, here with
           | [], _ :: _ => true
           | _, _ => false
           end, None).

Definition exampleTable : list LookupResult.t :=
  [ LookupResult.mk "api.example.com."
      (Set_.mk "api.example.com." Types.A [mkRecord "1.2.3.4" 0 []]
               (60 * time.Second));
    LookupResult.mk "example.com."
      (Set_.mk "example.com." Types.MX [mkRecord "mail.example.com." 10 []]
               (3600 * time.Second));
    LookupResult.mk "mail.example.com."
      (Set_.mk "mail.example.com." Types.A [mkRecord "5.6.7.8" 0 []]
               (3600 * time.Second)) ].

Definition exampleEnv : Env.t :=
  Env.mk endsWithDot uncompressedLen toLower seconds emailToDomain
         transferCase InZone Type_valid convert (tableLookup exampleTable).

(** The zone [example.com.] with two name servers; [nsttl] is its NS TTL. *)
Definition zoneWithNSTTL (nsttl : Z) : Zone.t :=
  Zone.mk "example.com." "ns1.example.com."
          ["ns1.example.com."; "ns2.example.com."] "" 0 0 0 0 nsttl 0
          (fun _ _ => ([], None)).

Definition exampleConfig (nsttl : Z) : Config.t :=
  NewServer
    (Config.mk 0
       (fun name => if InZone "example.com." name
                    then (Some (zoneWithNSTTL nsttl), None)
                    else (None, None))
       false).

Definition udp : dns.ResponseWriter.t :=
  dns.ResponseWriter.mk "udp" (fun _ => None).


(** A query for [name] and [qtype] in class IN; [edns] is the UDP size of
    its OPT record (version 0), if it carries one. *)
Definition query (name : string) (qtype : Z) (edns : option Z) : dns.Msg.t :=
  dns.Msg.mk 4711 false dns.OpcodeQuery false false true false false false
    false 0 false
    [dns.Question.mk name qtype dns.ClassINET] [] []
    (match edns with
     | Some size => [dns.OPT (dns.RR_Header.mk "." dns.TypeOPT size 0)]
     | None => []
     end).

(** ** The header's flag word (RFC 1035, 4.1.1)

    QR is the most significant of its 16 bits, OPCODE the four bits below. *)

Definition QR (dh : dns.Header.t) : bool := Z.testbit (dns.Header.Bits dh) 15.

Definition OPCODE (dh : dns.Header.t) : Z :=
  (dns.Header.Bits dh / 2 ^ 11) mod 2 ^ 4.

(** ** Where the records of a reply come from *)

(** The records of the three sections. *)
Definition records (m : dns.Msg.t) : list dns.RR :=
  dns.Msg.Answer m ++ dns.Msg.Ns m ++ dns.Msg.Extra m.




(** ** Orders and checks the theorems are stated with *)

(** [a] may stand before [b] in a list ascending by [key]. *)
Definition keyLe {A : Type} (key : A -> string) (a b : A) : Prop :=
  String.ltb (key b) (key a) = false.

Section SetChecks.
Variable IsDomain' : string -> bool -> bool.
Variable Type_valid' : RRType -> bool.
Variable Record_Validate' : Record_ -> RRType -> option error.

(** The five checks that precede the sort pass, and the sort does not panic. *)
Definition passes (s : Set_.t) : Prop :=
  IsDomain' (Set_.Name s) true = true /\
  Type_valid' (Set_.Type_ s) = true /\
  (Z.of_nat (length (Set_.Records s)) =? 0) = false /\
  (Set_.Type_ s =? Types.CNAME)
    && (Z.of_nat (length (Set_.Records s)) >? 1) = false /\
  Set_.validateRecords Record_Validate' (Set_.Type_ s) (Set_.Records s)
    = None /\
  Set_.lessPanics (Set_.Type_ s) (Set_.Records s) = false.

(** The set as a successful [Validate] leaves it. *)
Definition validated (s : Set_.t) : Set_.t :=
  Set_.mk (Set_.Name s) (Set_.Type_ s)
    (insertionSort (Set_.less (Set_.Type_ s)) (Set_.Records s))
    (if Set_.TTL s =? 0 then 5 * time.Minute else Set_.TTL s).

End SetChecks.

(** * Theorems *)

(** ** Zone.Validate: theorems *)

Section ZoneFacts.
Variable IsFqdn : string -> bool.

Lemma checkNameServers_error (l : list string) :
  (exists ns, In ns l /\ IsFqdn ns = false) ->
  exists e, Zone.checkNameServers IsFqdn l = Some e.
Proof.
  induction l as [|a l IH]; intros [ns [Hin Hns]].
  - destruct Hin.
  - simpl. destruct (IsFqdn a) eqn:Ha; simpl.
    + destruct Hin as [->|Hin]; [congruence|].
      apply IH. now exists ns.
    + eauto.
Qed.

(** The retry default never applies: however the call ends, the retry
    interval is the one the caller supplied. *)
Lemma Validate_keeps_Retry (z z' : Zone.t) (e : option error) :
  Zone.Validate IsFqdn z = (z', e) -> Zone.Retry z' = Zone.Retry z.
Proof.
  unfold Zone.Validate.
  destruct (negb (IsFqdn (Zone.Name z))); [intros [= <- _]; reflexivity|].
  destruct (negb (IsFqdn (Zone.MasterNameServer z)));
    [intros [= <- _]; reflexivity|].
  destruct (Zone.checkNameServers IsFqdn (Zone.AllNameServers z));
    [intros [= <- _]; reflexivity|].
  cbv zeta.
  assert (Hr : (if (if Zone.Refresh z =? 0 then 6 * time.Hour
                    else Zone.Refresh z) =? 0
                then time.Hour else Zone.Retry z) = Zone.Retry z).
  { destruct (Zone.Refresh z =? 0) eqn:E; [reflexivity|].
    now rewrite E. }
  rewrite Hr.
  repeat match goal with
         | |- context [if ?b then (_, _) else _] => destruct b
         end; intros [= <- _]; reflexivity.
Qed.
End ZoneFacts.

(** C1 (the code departs from it).  A zone with fully qualified names, one
    name server and every interval left unset validates without error, and
    its retry interval is still 0 afterwards, not the documented 1h. *)
Theorem C1_Validate_leaves_Retry_unset :
  let r := Zone.Validate endsWithDot (Zone.exampleZone ["ns1.example.com."]) in
  snd r = None /\
  Zone.Retry (Zone.exampleZone ["ns1.example.com."]) = 0 /\
  Zone.Retry (fst r) = 0 /\
  Zone.Retry (fst r) <> time.Hour /\
  Zone.Refresh (fst r) = 6 * time.Hour.
Proof. vm_compute. repeat split; congruence. Qed.

(** C2, as stated, fails: a zone without any name server validates. *)
Lemma C2_empty_name_servers_accepted :
  Zone.AllNameServers (Zone.exampleZone []) = [] /\
  snd (Zone.Validate endsWithDot (Zone.exampleZone [])) = None.
Proof. vm_compute. split; reflexivity. Qed.

Lemma checkNameServers_cases (IsFqdn : string -> bool) (l : list string) :
  (Zone.checkNameServers IsFqdn l = None /\
   Forall (fun ns => IsFqdn ns = true) l) \/
  (Zone.checkNameServers IsFqdn l
     = Some "additional name server not fully qualified" /\
   exists ns, In ns l /\ IsFqdn ns = false).
Proof.
  induction l as [|a l IH]; simpl.
  - left. split; [reflexivity | constructor].
  - destruct (IsFqdn a) eqn:Ha; simpl.
    + destruct IH as [[H F]|[H (ns & Hin & Hns)]].
      * left. split; [exact H | now constructor].
      * right. split; [exact H|]. exists ns. auto.
    + right. split; [reflexivity|]. exists a. auto.
Qed.

(** C2 (amended).  Validate does not ask for a name server.  It returns the
    error about the name servers exactly when the name and the master name
    server are fully qualified and some listed name server is not; and on a
    zone whose list is empty it returns nil exactly when the name and the
    master name server are fully qualified, the retry interval is below the
    refresh interval and the expire interval is not below their 64-bit sum
    (refresh and expire after their defaults). *)
Theorem C2_Validate_name_server_check
    (IsFqdn : string -> bool) (z : Zone.t) :
  (snd (Zone.Validate IsFqdn z)
     = Some "additional name server not fully qualified" <->
   IsFqdn (Zone.Name z) = true /\
   IsFqdn (Zone.MasterNameServer z) = true /\
   exists ns, In ns (Zone.AllNameServers z) /\ IsFqdn ns = false) /\
  (Zone.AllNameServers z = [] ->
   (snd (Zone.Validate IsFqdn z) = None <->
    IsFqdn (Zone.Name z) = true /\
    IsFqdn (Zone.MasterNameServer z) = true /\
    Zone.Retry z
      < (if Zone.Refresh z =? 0 then 6 * time.Hour else Zone.Refresh z) /\
    wrap64 ((if Zone.Refresh z =? 0 then 6 * time.Hour else Zone.Refresh z)
            + Zone.Retry z)
      <= (if Zone.Expire z =? 0 then 72 * time.Hour else Zone.Expire z))).
Proof.
  assert (Hr : (if (if Zone.Refresh z =? 0 then 6 * time.Hour
                    else Zone.Refresh z) =? 0
                then time.Hour else Zone.Retry z) = Zone.Retry z).
  { destruct (Zone.Refresh z =? 0) eqn:E; [reflexivity|]. now rewrite E. }
  unfold Zone.Validate. cbv zeta. rewrite Hr.
  set (refresh := if Zone.Refresh z =? 0 then 6 * time.Hour
                  else Zone.Refresh z).
  set (expire := if Zone.Expire z =? 0 then 72 * time.Hour
                 else Zone.Expire z).
  set (sum := wrap64 (refresh + Zone.Retry z)).
  destruct (IsFqdn (Zone.Name z)); cbn [negb].
  2:{ split; [|intros _]; (split; [discriminate|]);
        intros (H & _); discriminate. }
  destruct (IsFqdn (Zone.MasterNameServer z)); cbn [negb].
  2:{ split; [|intros _]; (split; [discriminate|]);
        intros (_ & H & _); discriminate. }
  split.
  - destruct (checkNameServers_cases IsFqdn (Zone.AllNameServers z))
      as [[-> F]|[-> Hex]].
    + split.
      * destruct (Zone.Retry z >=? refresh); [discriminate|].
        destruct (expire <? sum); discriminate.
      * intros (_ & _ & ns & Hin & Hns). exfalso.
        rewrite Forall_forall in F. specialize (F ns Hin). congruence.
    + cbn [snd]. split; auto.
  - intros ->. cbn [Zone.checkNameServers].
    destruct (Z.geb_spec (Zone.Retry z) refresh) as [Hge|Hlt]; cbn [snd].
    { split; [discriminate|]. intros (_ & _ & H & _). lia. }
    destruct (Z.ltb_spec expire sum) as [Hs|Hs]; cbn [snd].
    { split; [discriminate|]. intros (_ & _ & _ & H). lia. }
    split; auto.
Qed.

Lemma C2_Validate_name_server_check_witness :
  snd (Zone.Validate endsWithDot (Zone.exampleZone [])) = None.
Proof.
  apply (proj2 (C2_Validate_name_server_check endsWithDot
                  (Zone.exampleZone [])) eq_refl).
  vm_compute. repeat split; discriminate.
Defined.
(** ** Byte-wise string order *)

Lemma ascii_compare_lt_trans (a b c : ascii) :
  Ascii.compare a b = Lt -> Ascii.compare b c = Lt -> Ascii.compare a c = Lt.
Proof.
  unfold Ascii.compare. rewrite !N.compare_lt_iff. apply N.lt_trans.
Qed.

Lemma ascii_compare_refl (a : ascii) : Ascii.compare a a = Eq.
Proof. unfold Ascii.compare. apply N.compare_refl. Qed.

Lemma string_compare_refl (s : string) : String.compare s s = Eq.
Proof.
  induction s as [|c s IH]; simpl; [reflexivity|].
  now rewrite ascii_compare_refl.
Qed.

Lemma string_compare_lt_trans (s1 : string) :
  forall s2 s3, String.compare s1 s2 = Lt -> String.compare s2 s3 = Lt ->
                String.compare s1 s3 = Lt.
Proof.
  induction s1 as [|a s1 IH]; intros [|b s2] [|c s3]; simpl;
    try congruence.
  destruct (Ascii.compare a b) eqn:Hab; try discriminate;
    destruct (Ascii.compare b c) eqn:Hbc; try discriminate; intros H1 H2.
  - apply Ascii.compare_eq_iff in Hab, Hbc. subst.
    rewrite ascii_compare_refl. eauto.
  - apply Ascii.compare_eq_iff in Hab. subst. now rewrite Hbc.
  - apply Ascii.compare_eq_iff in Hbc. subst. now rewrite Hab.
  - now rewrite (ascii_compare_lt_trans _ _ _ Hab Hbc).
Qed.

Lemma ltb_irrefl (s : string) : String.ltb s s = false.
Proof. unfold String.ltb. now rewrite string_compare_refl. Qed.

Lemma ltb_trans (a b c : string) :
  String.ltb a b = true -> String.ltb b c = true -> String.ltb a c = true.
Proof.
  unfold String.ltb.
  destruct (String.compare a b) eqn:H1; try discriminate.
  destruct (String.compare b c) eqn:H2; try discriminate.
  now rewrite (string_compare_lt_trans _ _ _ H1 H2).
Qed.

Lemma ltb_asym (a b : string) :
  String.ltb a b = true -> String.ltb b a = false.
Proof.
  intros H. destruct (String.ltb b a) eqn:E; [|reflexivity].
  pose proof (ltb_trans _ _ _ H E) as Hc. rewrite ltb_irrefl in Hc.
  discriminate.
Qed.

Lemma ltb_connex (a b : string) :
  String.ltb a b = false -> String.ltb b a = false -> a = b.
Proof.
  unfold String.ltb. rewrite (String.compare_antisym a b).
  destruct (String.compare b a) eqn:E; simpl; try discriminate.
  intros _ _. symmetry. now apply String.compare_eq_iff.
Qed.

Lemma ltb_false_trans (a b c : string) :
  String.ltb a b = false -> String.ltb b c = false -> String.ltb a c = false.
Proof.
  intros Hab Hbc. destruct (String.ltb a c) eqn:Hac; [|reflexivity].
  destruct (String.ltb b a) eqn:Hba.
  - rewrite (ltb_trans _ _ _ Hba Hac) in Hbc. discriminate.
  - rewrite (ltb_connex _ _ Hab Hba) in Hac. congruence.
Qed.

(** Two ascending lists of strings with the same elements are equal. *)
Lemma sorted_strings_unique (k1 : list string) :
  forall k2,
    StronglySorted (fun a b => String.ltb b a = false) k1 ->
    StronglySorted (fun a b => String.ltb b a = false) k2 ->
    Permutation k1 k2 -> k1 = k2.
Proof.
  induction k1 as [|a k1 IH]; intros k2 S1 S2 P.
  - now apply Permutation_nil in P.
  - destruct k2 as [|b k2];
      [apply Permutation_sym, Permutation_nil in P; discriminate|].
    apply StronglySorted_inv in S1 as [S1 F1].
    apply StronglySorted_inv in S2 as [S2 F2].
    assert (Hab : a = b).
    { assert (Ia : In a (b :: k2))
        by (eapply Permutation_in; [exact P|now left]).
      assert (Ib : In b (a :: k1))
        by (eapply Permutation_in; [exact (Permutation_sym P)|now left]).
      destruct Ia as [->|Ia]; [reflexivity|].
      destruct Ib as [->|Ib]; [reflexivity|].
      rewrite Forall_forall in F1, F2.
      apply ltb_connex; [apply F2, Ia | apply F1, Ib]. }
    subst b. f_equal. apply IH; auto.
    now apply Permutation_cons_inv in P.
Qed.

(** ** The sort *)

Section SortFacts.
Context {A : Type}.
Variable key : A -> string.
Let less (a b : A) : bool := String.ltb (key a) (key b).

Lemma sink_perm (x : A) (l : list A) : Permutation (sink less x l) (x :: l).
Proof.
  induction l as [|p l IH]; simpl; [reflexivity|].
  destruct (less x p); [|reflexivity].
  rewrite IH. apply perm_swap.
Qed.

Lemma insertionSort_perm (l : list A) : Permutation (insertionSort less l) l.
Proof.
  unfold insertionSort. rewrite <- Permutation_rev.
  assert (G : forall acc, Permutation
                (fold_left (fun r x => sink less x r) l acc) (l ++ acc)).
  { induction l as [|x l IH]; intros acc; simpl; [reflexivity|].
    rewrite IH, sink_perm. apply Permutation_sym, Permutation_middle. }
  rewrite G, app_nil_r. reflexivity.
Qed.

Lemma sink_sorted (x : A) (l : list A) :
  StronglySorted (fun p q => keyLe key q p) l ->
  StronglySorted (fun p q => keyLe key q p) (sink less x l).
Proof.
  unfold keyLe. induction l as [|p l IH]; intros S; simpl.
  - repeat constructor.
  - pose proof (StronglySorted_inv S) as [S' F].
    destruct (less x p) eqn:E; unfold less in E.
    + constructor; [auto|].
      rewrite Forall_forall in *. intros y Hy.
      apply (Permutation_in _ (sink_perm x l)) in Hy.
      destruct Hy as [<-|Hy]; [now apply ltb_asym | now apply F].
    + constructor; [exact S|].
      constructor; [exact E|].
      rewrite Forall_forall in *. intros y Hy.
      eapply ltb_false_trans; [exact E | now apply F].
Qed.

Lemma StronglySorted_rev (R : A -> A -> Prop) (l : list A) :
  StronglySorted (fun p q => R q p) l -> StronglySorted R (rev l).
Proof.
  induction 1 as [|a l S IH F]; simpl; [constructor|].
  assert (G : forall l1 : list A,
             StronglySorted R l1 -> Forall (fun y => R y a) l1 ->
             StronglySorted R (l1 ++ [a])).
  { induction 1 as [|b l1 S1 IH1 F1]; intros Fa; simpl.
    - repeat constructor.
    - inversion Fa; subst. constructor; [auto|].
      apply Forall_app; split; [assumption|]. now constructor. }
  apply G; [exact IH|].
  rewrite Forall_forall in *. intros y Hy. apply F. now apply in_rev.
Qed.

Lemma insertionSort_sorted (l : list A) :
  StronglySorted (keyLe key) (insertionSort less l).
Proof.
  unfold insertionSort. apply StronglySorted_rev.
  assert (G : forall acc,
             StronglySorted (fun p q => keyLe key q p) acc ->
             StronglySorted (fun p q => keyLe key q p)
               (fold_left (fun r x => sink less x r) l acc)).
  { induction l as [|x l IH]; intros acc S; simpl; [exact S|].
    apply IH. now apply sink_sorted. }
  apply G. constructor.
Qed.

Lemma StronglySorted_keys (l : list A) :
  StronglySorted (keyLe key) l ->
  StronglySorted (fun a b => String.ltb b a = false) (map key l).
Proof.
  induction 1 as [|a l S IH F]; simpl; constructor; auto.
  rewrite Forall_forall in *. intros k Hk.
  apply in_map_iff in Hk as [y [<- Hy]]. now apply F.
Qed.

(** Whatever the order of the input, the keys come out in one sequence. *)
Lemma sorted_perm_keys (l1 l2 : list A) :
  StronglySorted (keyLe key) l1 -> StronglySorted (keyLe key) l2 ->
  Permutation l1 l2 -> map key l1 = map key l2.
Proof.
  intros S1 S2 P. apply sorted_strings_unique.
  - now apply StronglySorted_keys.
  - now apply StronglySorted_keys.
  - now apply Permutation_map.
Qed.

Lemma NoDup_map_eq (l1 : list A) :
  forall l2, NoDup (map key l1) -> Permutation l1 l2 ->
             map key l1 = map key l2 -> l1 = l2.
Proof.
  induction l1 as [|a l1 IH]; intros l2 N P E.
  - now apply Permutation_nil in P.
  - destruct l2 as [|b l2]; [discriminate|].
    simpl in E. injection E as Ek Et.
    inversion N as [|k ks Hnot N']; subst.
    assert (Hab : a = b).
    { assert (Ib : In b (a :: l1))
        by (eapply Permutation_in; [exact (Permutation_sym P)|now left]).
      destruct Ib as [->|Ib]; [reflexivity|].
      exfalso. apply Hnot. rewrite Ek. now apply in_map. }
    subst b. f_equal. apply IH; auto.
    now apply Permutation_cons_inv in P.
Qed.

(** With pairwise distinct keys a slice has one ascending arrangement: every
    sorting procedure returns it. *)
Lemma sorted_perm_unique (l1 l2 : list A) :
  StronglySorted (keyLe key) l1 -> StronglySorted (keyLe key) l2 ->
  Permutation l1 l2 -> NoDup (map key l1) -> l1 = l2.
Proof.
  intros S1 S2 P N. apply NoDup_map_eq; auto.
  now apply sorted_perm_keys.
Qed.
End SortFacts.

Lemma sink_ext {A : Type} (f g : A -> A -> bool) (x : A) (l : list A) :
  (forall a b, f a b = g a b) -> sink f x l = sink g x l.
Proof.
  intros H. induction l as [|p l IH]; simpl; [reflexivity|].
  now rewrite H, IH.
Qed.

Lemma insertionSort_ext {A : Type} (f g : A -> A -> bool) (l : list A) :
  (forall a b, f a b = g a b) -> insertionSort f l = insertionSort g l.
Proof.
  intros H. unfold insertionSort. f_equal.
  generalize (@nil A) as acc.
  induction l as [|x l IH]; intros acc; simpl; [reflexivity|].
  now rewrite (sink_ext f g x acc H), IH.
Qed.

(** ** Set.Validate: theorems *)

Lemma less_sortKey (typ : RRType) (a b : Record_) :
  Set_.less typ a b = String.ltb (Set_.sortKey typ a) (Set_.sortKey typ b).
Proof.
  unfold Set_.less, Set_.sortKey.
  destruct (typ =? Types.TXT); [reflexivity|].
  destruct (typ =? Types.MX); reflexivity.
Qed.

Section SetFacts.
Variable IsDomain' : string -> bool -> bool.
Variable Type_valid' : RRType -> bool.
Variable Record_Validate' : Record_ -> RRType -> option error.


Lemma Validate_ok_iff (s s' : Set_.t) :
  Set_.Validate IsDomain' Type_valid' Record_Validate' s
    = Set_.Returned s' None <->
  passes IsDomain' Type_valid' Record_Validate' s /\ s' = validated s.
Proof.
  unfold Set_.Validate, passes, validated. split.
  - destruct (IsDomain' (Set_.Name s) true); simpl; [|discriminate].
    destruct (Type_valid' (Set_.Type_ s)); simpl; [|discriminate].
    destruct (Z.of_nat (length (Set_.Records s)) =? 0); [discriminate|].
    destruct ((Set_.Type_ s =? Types.CNAME)
              && (Z.of_nat (length (Set_.Records s)) >? 1)); [discriminate|].
    destruct (Set_.validateRecords Record_Validate' (Set_.Type_ s)
                (Set_.Records s));
      [discriminate|].
    destruct (Set_.lessPanics (Set_.Type_ s) (Set_.Records s));
      [discriminate|].
    intros [= <-]. repeat split; reflexivity.
  - intros [(H1 & H2 & H3 & H4 & H5 & H6) ->].
    rewrite H1, H2, H3, H4, H5, H6. reflexivity.
Qed.

Lemma validateRecords_None (typ : RRType) (l : list Record_) :
  Set_.validateRecords Record_Validate' typ l = None <->
  Forall (fun r => Record_Validate' r typ = None) l.
Proof.
  induction l as [|r l IH]; simpl.
  - split; [constructor | reflexivity].
  - destruct (Record_Validate' r typ) eqn:E.
    + split; [discriminate|]. intros F. inversion F; congruence.
    + rewrite IH. split; [now constructor | now inversion 1].
Qed.

Lemma existsb_perm {B : Type} (f : B -> bool) (l1 l2 : list B) :
  Permutation l1 l2 -> existsb f l1 = existsb f l2.
Proof.
  intros P. apply eq_true_iff_eq. rewrite !existsb_exists.
  split; intros [x [Hx Hf]]; exists x; split; auto;
    [eapply Permutation_in | eapply Permutation_in; [apply Permutation_sym|]];
    eauto.
Qed.

Lemma passes_perm (s1 s2 : Set_.t) :
  Set_.Name s2 = Set_.Name s1 -> Set_.Type_ s2 = Set_.Type_ s1 ->
  Permutation (Set_.Records s1) (Set_.Records s2) ->
  passes IsDomain' Type_valid' Record_Validate' s1 ->
  passes IsDomain' Type_valid' Record_Validate' s2.
Proof.
  intros Hn Ht P (H1 & H2 & H3 & H4 & H5 & H6).
  unfold passes, Set_.lessPanics in *.
  rewrite Hn, Ht, <- (Permutation_length P), <- (existsb_perm _ _ _ P).
  repeat split; auto.
  apply validateRecords_None.
  eapply Permutation_Forall; [exact P|]. now apply validateRecords_None.
Qed.

Lemma sorted_records (typ : RRType) (l : list Record_) :
  StronglySorted (keyLe (Set_.sortKey typ)) (insertionSort (Set_.less typ) l).
Proof.
  rewrite (insertionSort_ext _ _ l (less_sortKey typ)).
  apply insertionSort_sorted.
Qed.

Lemma sorted_records_perm (typ : RRType) (l : list Record_) :
  Permutation (insertionSort (Set_.less typ) l) l.
Proof.
  rewrite (insertionSort_ext _ _ l (less_sortKey typ)).
  apply insertionSort_perm.
Qed.

Lemma passes_validated (s : Set_.t) :
  passes IsDomain' Type_valid' Record_Validate' s ->
  passes IsDomain' Type_valid' Record_Validate' (validated s).
Proof.
  intros H. eapply passes_perm; [| | |exact H]; try reflexivity.
  simpl. apply Permutation_sym, sorted_records_perm.
Qed.

Lemma validated_TTL_fixed (ttl : Z) :
  (if (if ttl =? 0 then 5 * time.Minute else ttl) =? 0
   then 5 * time.Minute else (if ttl =? 0 then 5 * time.Minute else ttl)) =
  (if ttl =? 0 then 5 * time.Minute else ttl).
Proof.
  destruct (ttl =? 0) eqn:E; [reflexivity|]. now rewrite E.
Qed.
End SetFacts.

(** C6, as stated, fails: two TXT records that agree on their first string
    and differ after it stay in the order they were supplied in, so the two
    arrangements of the same records validate to two different orders. *)
Lemma C6_order_depends_on_input_order :
  let r1 := txt ["v=spf1"; "-all"] in
  let r2 := txt ["v=spf1"; "~all"] in
  Permutation [r1; r2] [r2; r1] /\
  validateSet (txtSet [r1; r2])
    = Set_.Returned (Set_.mk "example.com." Types.TXT [r1; r2]
                             (5 * time.Minute)) None /\
  validateSet (txtSet [r2; r1])
    = Set_.Returned (Set_.mk "example.com." Types.TXT [r2; r1]
                             (5 * time.Minute)) None /\
  [r1; r2] <> [r2; r1].
Proof.
  cbv zeta. split; [apply perm_swap|].
  split; [vm_compute; reflexivity|].
  split; [vm_compute; reflexivity|].
  discriminate.
Qed.

(** C6 (amended).  When Validate returns nil on a set, it returns nil on
    every set with the same name, type and TTL whose records are a
    permutation of it; the records are left ascending by sort key (TXT: first
    data string; MX: priority padded to five digits, a space, the address;
    otherwise the address) and the sequence of keys is the same for both.
    When the keys of the records are pairwise distinct the two validated sets
    are equal, and validating the result again returns nil and leaves it as
    it is. *)
Theorem C6_Validate_canonical_order
    (IsDomain' : string -> bool -> bool) (Type_valid' : RRType -> bool)
    (Record_Validate' : Record_ -> RRType -> option error)
    (s1 s2 s1' : Set_.t) :
  Set_.Name s2 = Set_.Name s1 ->
  Set_.Type_ s2 = Set_.Type_ s1 ->
  Set_.TTL s2 = Set_.TTL s1 ->
  Permutation (Set_.Records s1) (Set_.Records s2) ->
  Set_.Validate IsDomain' Type_valid' Record_Validate' s1
    = Set_.Returned s1' None ->
  exists s2',
    Set_.Validate IsDomain' Type_valid' Record_Validate' s2
      = Set_.Returned s2' None /\
    Permutation (Set_.Records s1) (Set_.Records s1') /\
    StronglySorted (keyLe (Set_.sortKey (Set_.Type_ s1))) (Set_.Records s1') /\
    map (Set_.sortKey (Set_.Type_ s1)) (Set_.Records s2')
      = map (Set_.sortKey (Set_.Type_ s1)) (Set_.Records s1') /\
    (NoDup (map (Set_.sortKey (Set_.Type_ s1)) (Set_.Records s1)) ->
     s2' = s1' /\
     Set_.Validate IsDomain' Type_valid' Record_Validate' s1'
       = Set_.Returned s1' None).
Proof.
  intros Hn Ht Httl P H1.
  apply Validate_ok_iff in H1 as [Hp ->].
  pose proof (passes_perm _ _ _ s1 s2 Hn Ht P Hp) as Hp2.
  exists (validated s2).
  assert (Hk : map (Set_.sortKey (Set_.Type_ s1)) (Set_.Records (validated s2))
               = map (Set_.sortKey (Set_.Type_ s1))
                     (Set_.Records (validated s1))).
  { simpl. rewrite Ht. apply sorted_perm_keys; try apply sorted_records.
    rewrite !sorted_records_perm. now apply Permutation_sym. }
  split; [apply Validate_ok_iff; split; [exact Hp2 | reflexivity]|].
  split; [simpl; apply Permutation_sym, sorted_records_perm|].
  split; [simpl; apply sorted_records|].
  split; [exact Hk|].
  intros N.
  assert (N1 : NoDup (map (Set_.sortKey (Set_.Type_ s1))
                          (Set_.Records (validated s1)))).
  { eapply Permutation_NoDup; [|exact N].
    apply Permutation_map, Permutation_sym, sorted_records_perm. }
  split.
  - unfold validated in *. simpl in *. rewrite Hn, Ht, Httl. f_equal.
    symmetry. apply NoDup_map_eq with (key := Set_.sortKey (Set_.Type_ s1)).
    + exact N1.
    + rewrite <- Ht, !sorted_records_perm. exact P.
    + rewrite <- Ht. symmetry. rewrite Ht in Hk. rewrite Ht. exact Hk.
  - apply Validate_ok_iff. split; [now apply passes_validated|].
    unfold validated.
    cbn [Set_.Name Set_.Type_ Set_.Records Set_.TTL].
    rewrite validated_TTL_fixed. f_equal.
    apply sorted_perm_unique with (key := Set_.sortKey (Set_.Type_ s1)).
    + apply sorted_records.
    + apply sorted_records.
    + apply Permutation_sym, sorted_records_perm.
    + exact N1.
Qed.

Lemma C6_Validate_canonical_order_witness :
  let s1 := txtSet [txt ["v=spf1"; "-all"];
                    txt ["google-site-verification=x"]] in
  let s2 := txtSet [txt ["google-site-verification=x"];
                    txt ["v=spf1"; "-all"]] in
  let s1' := Set_.mk "example.com." Types.TXT
               [txt ["google-site-verification=x"]; txt ["v=spf1"; "-all"]]
               (5 * time.Minute) in
  exists s2',
    validateSet s2 = Set_.Returned s2' None /\
    s2' = s1' /\
    validateSet s1' = Set_.Returned s1' None.
Proof.
  cbv zeta.
  destruct (C6_Validate_canonical_order
              IsDomain Type_valid (Record_Validate noAddress noAddress)
              (txtSet [txt ["v=spf1"; "-all"];
                       txt ["google-site-verification=x"]])
              (txtSet [txt ["google-site-verification=x"];
                       txt ["v=spf1"; "-all"]])
              (Set_.mk "example.com." Types.TXT
                 [txt ["google-site-verification=x"]; txt ["v=spf1"; "-all"]]
                 (5 * time.Minute))
              eq_refl eq_refl eq_refl (perm_swap _ _ _) eq_refl)
    as (s2' & H2 & _ & _ & _ & Hd).
  exists s2'. split; [exact H2|].
  apply Hd. simpl.
  constructor; [simpl; intros [H|[]]; discriminate|].
  constructor; [intros []|constructor].
Defined.

(** C10.  When Validate returns an error, the set is as it was before the
    call: neither reordered nor given the default TTL. *)
Theorem C10_Validate_error_leaves_set_unchanged
    (IsDomain' : string -> bool -> bool) (Type_valid' : RRType -> bool)
    (Record_Validate' : Record_ -> RRType -> option error)
    (s s' : Set_.t) (e : error) :
  Set_.Validate IsDomain' Type_valid' Record_Validate' s
    = Set_.Returned s' (Some e) ->
  s' = s.
Proof.
  unfold Set_.Validate.
  destruct (negb (IsDomain' (Set_.Name s) true)); [now intros [= <- _]|].
  destruct (negb (Type_valid' (Set_.Type_ s))); [now intros [= <- _]|].
  destruct (Z.of_nat (length (Set_.Records s)) =? 0); [now intros [= <- _]|].
  destruct ((Set_.Type_ s =? Types.CNAME)
            && (Z.of_nat (length (Set_.Records s)) >? 1));
    [now intros [= <- _]|].
  destruct (Set_.validateRecords Record_Validate' (Set_.Type_ s)
              (Set_.Records s)); [now intros [= <- _]|].
  destruct (Set_.lessPanics (Set_.Type_ s) (Set_.Records s)); discriminate.
Qed.

Lemma C10_Validate_error_leaves_set_unchanged_witness :
  let s := txtSet [txt ["b"]; txt ["a"]; txt []] in
  validateSet s = Set_.Returned s (Some "invalid record: missing data") /\
  s = s.
Proof.
  cbv zeta. split; [reflexivity|].
  apply (C10_Validate_error_leaves_set_unchanged
           IsDomain Type_valid (Record_Validate noAddress noAddress)
           (txtSet [txt ["b"]; txt ["a"]; txt []])
           (txtSet [txt ["b"]; txt ["a"]; txt []])
           "invalid record: missing data").
  reflexivity.
Defined.

(** ** Server.accept *)

Lemma land_bit15 (a : Z) :
  (Z.land a (Z.shiftl 1 15) =? 0) = negb (Z.testbit a 15).
Proof.
  replace (Z.shiftl 1 15) with (2 ^ 15) by reflexivity.
  destruct (Z.testbit a 15) eqn:Hb; cbn [negb].
  - apply Z.eqb_neq. intros H0.
    assert (Ht : Z.testbit (Z.land a (2 ^ 15)) 15 = true).
    { rewrite Z.land_spec, Hb, Z.pow2_bits_true; [reflexivity | lia]. }
    rewrite H0, Z.bits_0 in Ht. discriminate.
  - apply Z.eqb_eq. apply Z.bits_inj'. intros n Hn.
    rewrite Z.land_spec, Z.bits_0, Z.pow2_bits_eqb by lia.
    destruct (Z.eqb_spec 15 n) as [<-|_]; [now rewrite Hb|].
    apply andb_false_r.
Qed.

Lemma opcode_bits (a : Z) :
  Z.land (Z.shiftr a 11) 15 = (a / 2 ^ 11) mod 2 ^ 4.
Proof.
  change 15 with (Z.ones 4).
  rewrite Z.land_ones by lia. now rewrite Z.shiftr_div_pow2 by lia.
Qed.

(** C7.  The accept filter ignores a message, so that no reply is produced,
    exactly when its response bit is set, its opcode is not QUERY or its
    question count is not 1; it accepts every other message. *)
Theorem C7_accept_filter (dh : dns.Header.t) :
  (accept dh = dns.MsgIgnore <->
   QR dh = true \/ OPCODE dh <> dns.OpcodeQuery \/ dns.Header.Qdcount dh <> 1)
  /\
  (accept dh = dns.MsgAccept <->
   QR dh = false /\ OPCODE dh = dns.OpcodeQuery /\ dns.Header.Qdcount dh = 1).
Proof.
  unfold accept, QR, OPCODE.
  rewrite land_bit15, opcode_bits, negb_involutive.
  destruct (Z.testbit (dns.Header.Bits dh) 15).
  { split; split; intros H; try discriminate; auto.
    destruct H as [H _]. discriminate. }
  destruct (Z.eqb_spec ((dns.Header.Bits dh / 2 ^ 11) mod 2 ^ 4)
              dns.OpcodeQuery) as [Ho|Ho]; simpl.
  2:{ split; split; intros H; try discriminate; auto.
      destruct H as (_ & H & _). contradiction. }
  destruct (Z.eqb_spec (dns.Header.Qdcount dh) 1) as [Hq|Hq]; simpl.
  - split; split; intros H; try discriminate; auto.
    destruct H as [H|[H|H]]; [discriminate | contradiction | contradiction].
  - split; split; intros H; try discriminate; auto.
    destruct H as (_ & _ & H). contradiction.
Qed.

(** ** The messages written *)

Lemma written_app (a b : list event) :
  written (a ++ b) = written a ++ written b.
Proof.
  induction a as [|e a IH]; simpl; [reflexivity|].
  destruct e; simpl; now rewrite IH.
Qed.

Section ServerFacts.
Variable E : Env.t.
Variable config : Config.t.
Variable w : dns.ResponseWriter.t.

Lemma written_reportError (r : dns.Msg.t) (msg : string) :
  written (reportError config r msg) = [].
Proof. unfold reportError. now destruct (Config.Reporter config). Qed.

Lemma written_writeError (rs : dns.Msg.t) (code : Z) :
  written (writeError rs code) = [dns.Msg.setRcode code rs].
Proof. reflexivity. Qed.

Lemma written_writeError_report (rq rs : dns.Msg.t) (code : Z) (msg : string) :
  written (writeError rs code ++ reportError config rq msg)
  = [dns.Msg.setRcode code rs].
Proof. now rewrite written_app, written_reportError. Qed.

Lemma written_writeMessage (rq rs : dns.Msg.t) :
  written (writeMessage E config w rq rs)
  = [if isUDP w && (Env.Len E rs >? bufferOf rq)
     then dns.Msg.setRcode dns.RcodeSuccess (truncate rs)
     else rs].
Proof.
  unfold writeMessage.
  destruct (isUDP w && (Env.Len E rs >? bufferOf rq)); [reflexivity|].
  destruct (dns.ResponseWriter.WriteMsg w rs); [|reflexivity].
  simpl. now rewrite written_reportError.
Qed.

(** Every path of the handler ends in one of five ways: nothing is written;
    the question is missing; an error reply is written as it is, with or
    without a report; or a reply that is not yet marked truncated goes
    through [writeMessage]. *)
Lemma handler_paths (rq : dns.Msg.t) (P : list event -> Prop) :
  P [] ->
  P [Panic] ->
  (forall rs code,
      In code [dns.RcodeBadVers; dns.RcodeNotImplemented;
               dns.RcodeServerFailure; dns.RcodeRefused] ->
      dns.Msg.Truncated rs = false ->
      P (writeError rs code)) ->
  (forall rs msg,
      dns.Msg.Truncated rs = false ->
      P (writeError rs dns.RcodeServerFailure ++ reportError config rq msg)) ->
  (forall rs,
      dns.Msg.Truncated rs = false ->
      P (writeMessage E config w rq rs)) ->
  P (handler E config w rq).
Proof.
  intros Hnone Hpanic Herr Hrep Hmsg.
  assert (HQ : forall rs, dns.Msg.Truncated rs = false ->
                          P (answerQuestion E config w rq rs)).
  { intros rs Hrs. unfold answerQuestion.
    destruct (dns.Msg.Question rq) as [|question qs]; [exact Hpanic|].
    destruct (negb (dns.Question.Qclass question =? dns.ClassINET));
      [exact Hnone|].
    destruct (dns.Question.Qtype question =? dns.TypeANY);
      [apply Herr; simpl; auto|].
    destruct (Config.Handler config _) as [[zone0|] [err|]];
      try (now apply Hrep); [|apply Herr; simpl; auto].
    destruct (Zone.Validate (Env.IsFqdn E) zone0) as [zone [err|]];
      [now apply Hrep|].
    unfold answerFromZone, writeSOAResponse, writeNSResponse,
      writeErrorWithSOA.
    destruct (_ && _); [now apply Hmsg|].
    destruct (_ && _); [now apply Hmsg|].
    destruct (negb _); [now apply Hmsg|].
    destruct (Env.Lookup E zone _ _) as [[result avl] [err|]];
      [now apply Hrep|].
    destruct (Z.of_nat (length result) =? 0);
      [destruct avl; now apply Hmsg|].
    cbv zeta.
    destruct (checkAnswers _ _ _ _ _) as [extra [err|]];
      [now apply Hrep | now apply Hmsg]. }
  unfold handler. cbv zeta.
  destruct (dns.Msg.IsEdns0 rq) as [opt|]; [|now apply HQ].
  destruct (negb (dns.Version opt =? 0)); [apply Herr; simpl; auto|].
  now apply HQ.
Qed.
End ServerFacts.

(** ** Server.handler: error replies and truncation *)

(** C8.  When the zone resolver returns no zone and no error for an accepted
    query, the handler writes one reply, with response code REFUSED and
    without the authoritative flag. *)
Theorem C8_no_zone_is_REFUSED
    (E : Env.t) (config : Config.t) (w : dns.ResponseWriter.t)
    (rq : dns.Msg.t) (q : dns.Question.t) (qs : list dns.Question.t) :
  dns.Msg.Question rq = q :: qs ->
  (forall opt, dns.Msg.IsEdns0 rq = Some opt -> dns.Version opt = 0) ->
  dns.Question.Qclass q = dns.ClassINET ->
  dns.Question.Qtype q <> dns.TypeANY ->
  Config.Handler config (Env.lowerName E (dns.Question.Name q))
    = (None, None) ->
  exists m,
    handler E config w rq = [WriteMsg m; Close] /\
    dns.Msg.Rcode m = dns.RcodeRefused /\
    dns.Msg.Authoritative m = false.
Proof.
  intros Hq Hv Hc Ht Hz.
  assert (HQ : forall rs,
             answerQuestion E config w rq rs
             = writeError (dns.Msg.setAuthoritative false rs)
                          dns.RcodeRefused).
  { intros rs. unfold answerQuestion. rewrite Hq.
    apply Z.eqb_eq in Hc. rewrite Hc. apply Z.eqb_neq in Ht. rewrite Ht.
    cbv zeta. simpl negb. cbv iota. now rewrite Hz. }
  unfold handler. cbv zeta.
  destruct (dns.Msg.IsEdns0 rq) as [opt|] eqn:He.
  - rewrite (Hv opt eq_refl). simpl negb. cbv iota. rewrite HQ.
    eexists. split; [reflexivity|]. split; reflexivity.
  - rewrite HQ. eexists. split; [reflexivity|]. split; reflexivity.
Qed.

Lemma C8_no_zone_is_REFUSED_witness :
  exists m,
    handler exampleEnv (exampleConfig 0) udp (query "example.org." 1 None)
      = [WriteMsg m; Close] /\
    dns.Msg.Rcode m = dns.RcodeRefused /\
    dns.Msg.Authoritative m = false.
Proof.
  apply (C8_no_zone_is_REFUSED exampleEnv (exampleConfig 0) udp
           (query "example.org." 1 None)
           (dns.Question.mk "example.org." 1 dns.ClassINET) []).
  - reflexivity.
  - intros opt H. discriminate H.
  - reflexivity.
  - discriminate.
  - reflexivity.
Defined.

(** C9.  When [writeMessage] truncates a reply (the client uses UDP and the
    reply is longer than the buffer), the message written carries NOERROR
    whatever code the reply carried, and the connection is closed. *)
Theorem C9_truncated_reply_is_NOERROR
    (E : Env.t) (config : Config.t) (w : dns.ResponseWriter.t)
    (rq rs : dns.Msg.t) :
  isUDP w = true ->
  Env.Len E rs > bufferOf rq ->
  exists m,
    writeMessage E config w rq rs = [WriteMsg m; Close] /\
    dns.Msg.Truncated m = true /\
    dns.Msg.Rcode m = dns.RcodeSuccess.
Proof.
  intros Hu Hl. unfold writeMessage. rewrite Hu.
  apply Z.gtb_gt in Hl. rewrite Hl. simpl andb. cbv iota.
  eexists. split; [reflexivity|]. split; reflexivity.
Qed.

Lemma C9_truncated_reply_is_NOERROR_witness :
  let rq := query "nope.example.com." 1 (Some 0) in
  let rs := dns.Msg.setRcode dns.RcodeNameError
              (dns.Msg.SetReply rq dns.Msg.new) in
  dns.Msg.Rcode rs = dns.RcodeNameError /\
  exists m,
    writeMessage exampleEnv (exampleConfig 0) udp rq rs
      = [WriteMsg m; Close] /\
    dns.Msg.Truncated m = true /\
    dns.Msg.Rcode m = dns.RcodeSuccess.
Proof.
  cbv zeta. split; [reflexivity|].
  apply (C9_truncated_reply_is_NOERROR exampleEnv (exampleConfig 0) udp).
  - reflexivity.
  - reflexivity.
Defined.

(** The same at the level of the handler: a written message that is marked
    truncated was written over UDP, carries NOERROR and has no records. *)
Lemma handler_truncated
    (E : Env.t) (config : Config.t) (w : dns.ResponseWriter.t)
    (rq m : dns.Msg.t) :
  In m (written (handler E config w rq)) ->
  dns.Msg.Truncated m = true ->
  isUDP w = true /\ dns.Msg.Rcode m = dns.RcodeSuccess /\
  dns.Msg.Answer m = [] /\ dns.Msg.Ns m = [] /\ dns.Msg.Extra m = [].
Proof.
  revert m. apply handler_paths.
  - intros m [].
  - intros m [].
  - intros rs code _ Hrs m [<-|[]]. simpl. congruence.
  - intros rs msg Hrs m. rewrite written_writeError_report.
    intros [<-|[]]. simpl. congruence.
  - intros rs Hrs m. rewrite written_writeMessage.
    destruct (isUDP w) eqn:Hu; simpl andb.
    + destruct (Env.Len E rs >? bufferOf rq); intros [<-|[]];
        [intros _; repeat split | congruence].
    + intros [<-|[]]. congruence.
Qed.

(** C4, as stated, fails: an error reply is written as it is, even over UDP
    and longer than the buffer.  The query asks for type ANY and advertises
    a UDP size of 0, below the 12 octets of any header; the NOTIMP reply is
    not marked truncated and keeps its additional section. *)
Lemma C4_error_reply_not_truncated :
  let rq := query "example.com." dns.TypeANY (Some 0) in
  exists m,
    written (handler exampleEnv (exampleConfig 0) udp rq) = [m] /\
    isUDP udp = true /\
    bufferOf rq = 0 /\
    Env.Len exampleEnv m > bufferOf rq /\
    dns.Msg.Rcode m = dns.RcodeNotImplemented /\
    dns.Msg.Truncated m = false /\
    dns.Msg.Extra m <> [].
Proof.
  cbv zeta. eexists. split; [vm_compute; reflexivity|].
  repeat split; try reflexivity. discriminate.
Qed.

(** C4 (amended).  Every reply the handler writes over UDP fits the
    negotiated buffer, or has TC set and empty answer, authority and
    additional sections, or is one of the error replies BADVERS, NOTIMP,
    SERVFAIL and REFUSED, which are written without a look at their length.
    No reply written over another network has TC set. *)
Theorem C4_truncation_over_UDP_only
    (E : Env.t) (config : Config.t) (w : dns.ResponseWriter.t)
    (rq m : dns.Msg.t) :
  In m (written (handler E config w rq)) ->
  (isUDP w = false -> dns.Msg.Truncated m = false) /\
  (isUDP w = true ->
   Env.Len E m <= bufferOf rq \/
   (dns.Msg.Truncated m = true /\ dns.Msg.Answer m = [] /\
    dns.Msg.Ns m = [] /\ dns.Msg.Extra m = []) \/
   In (dns.Msg.Rcode m)
      [dns.RcodeBadVers; dns.RcodeNotImplemented;
       dns.RcodeServerFailure; dns.RcodeRefused]).
Proof.
  revert m. apply handler_paths.
  - intros m [].
  - intros m [].
  - intros rs code Hc Hrs m [<-|[]]. split; [auto|].
    intros _. right. right. exact Hc.
  - intros rs msg Hrs m. rewrite written_writeError_report.
    intros [<-|[]]. split; [auto|].
    intros _. right. right. simpl. auto.
  - intros rs Hrs m. rewrite written_writeMessage.
    destruct (isUDP w) eqn:Hu; simpl andb.
    + destruct (Env.Len E rs >? bufferOf rq) eqn:Hl; intros [<-|[]].
      * split; [discriminate|]. intros _. right. left. repeat split.
      * split; [discriminate|]. intros _. left.
        destruct (Z.gtb_spec (Env.Len E rs) (bufferOf rq)); [discriminate|].
        lia.
    + intros [<-|[]]. split; [auto | discriminate].
Qed.

Lemma C4_truncation_over_UDP_only_witness :
  let rq := query "nope.example.com." 1 (Some 0) in
  exists m,
    written (handler exampleEnv (exampleConfig 0) udp rq) = [m] /\
    (isUDP udp = false -> dns.Msg.Truncated m = false) /\
    (isUDP udp = true ->
     Env.Len exampleEnv m <= bufferOf rq \/
     (dns.Msg.Truncated m = true /\ dns.Msg.Answer m = [] /\
      dns.Msg.Ns m = [] /\ dns.Msg.Extra m = []) \/
     In (dns.Msg.Rcode m)
        [dns.RcodeBadVers; dns.RcodeNotImplemented;
         dns.RcodeServerFailure; dns.RcodeRefused]).
Proof.
  cbv zeta. eexists. split; [vm_compute; reflexivity|].
  apply (C4_truncation_over_UDP_only exampleEnv (exampleConfig 0) udp
           (query "nope.example.com." 1 (Some 0))).
  vm_compute. left. reflexivity.
Defined.

(** ** Server.handler: negative replies *)




(** ** Server.handler: the TTLs of the records *)

Section RecordOrigin.
Variable E : Env.t.
Variable config : Config.t.
Variable w : dns.ResponseWriter.t.
Variable zone : Zone.t.








End RecordOrigin.



